(** * compasstheory.py: the Dynamic Compass Logistics essay printer

    The module defines one function, [main], which binds a raw string
    literal to the local name [theory] and passes it to the builtin
    [print]; the module body calls [main] when it is run as a script.

    A run of Python code is an interaction tree over the console: the
    only effects the builtins used here can have are writing to standard
    output and reading a line of standard input.  The text of a [str] is
    kept as the bytes of its UTF-8 encoding, the way standard output
    receives it. *)

From Stdlib Require Import String Ascii List Arith NArith Lia.
From ITree Require Import ITree ITreeFacts Props.Finite.
Import ListNotations.
Import ITreeNotations.
Local Open Scope string_scope.
Local Open Scope itree_scope.

(* ===================================================================== *)
(** ** Values and console effects *)

(** The Python values this module handles. *)
Variant value : Type :=
| VNone
| VStr (s : string).

(** [str(v)] for those values. *)
Definition str (v : value) : string :=
  match v with
  | VNone => "None"
  | VStr s => s
  end.

(** The line terminator [print] appends (its default [end]). *)
Definition newline : string := String (ascii_of_nat 10) EmptyString.

(** What code can ask of the console. *)
Variant consoleE : Type -> Type :=
| StdoutWrite (s : string) : consoleE unit
| StdinReadline : consoleE string.

(** The builtin [print(v)]: writes [str(v)] and a newline, returns [None]. *)
Definition print (v : value) : itree consoleE value :=
  ITree.trigger (StdoutWrite (str v ++ newline)) ;;
  Ret VNone.

(** The builtin [input()]: one line of standard input. *)
Definition input : itree consoleE value :=
  s <- ITree.trigger StdinReadline ;;
  Ret (VStr s).

(* ===================================================================== *)
(** ** The module *)

(** The raw triple-quoted literal bound to [theory] (source lines 2-187).
    It holds neither a quote nor a backslash, so the raw string is its own
    text; it ends with the newline that precedes the closing quotes. *)
Definition theory : string :=
"1. The Axiomatic Foundations of Dynamic Compass Logistics
---------------------------------------------------------------
At its core, the Dynamic Compass Logistics framework is built on several axioms that mirror fundamental physical principles and economic truths:

A. Conservation of Goods (Mass/Energy Analogy)
------------------------------------------------
Axiom: In any closed (or nearly closed) logistics network, goods are neither created nor destroyed.

Mathematical Expression:
    Inflows(i) - Outflows(i) = ΔI(i)
where I(i) is the inventory at node i.

Physical Analogy:
    Like the conservation of mass or charge in physics, every unit dispatched from a supplier must either arrive at a destination or be accounted for (e.g., stored or backlogged).

B. Capacity Constraints and Flow Limits
------------------------------------------
Axiom: The flow from one node to another cannot exceed the available supply at the source, the unmet demand at the destination, nor the transport route’s maximum capacity.

Equation:
    f(i, j, t) = min { s(i, t),  d(j, t),  c(i, j, t) }

Physical Analogy:
    This is like a pipe’s flow rate in fluid dynamics (where the narrowest pipe limits flow) or current flow in an electrical circuit (limited by the smallest conductor or highest resistance).

C. Dynamic Routing and Equilibrium (Potential Differences)
-------------------------------------------------------------
Axiom: Each node makes “local” decisions by evaluating its own state relative to its neighbors. The idea is to send resources from nodes with surplus (high inventory, high “potential”) toward nodes with deficits (low inventory, low “potential”).

Compass Mechanism:
    Define a node’s “potential” as:
        φ(i) = I(i) / I(i)_target
    where a value φ > 1 suggests surplus and φ < 1 indicates a need.

Economic Analogy:
    This is akin to price signals in a market—where shortages push prices up and surpluses push them down—driving redistribution.

D. Inertia and Buffering (Momentum)
--------------------------------------
Axiom: Changes in flow are not instantaneous. Inventories act as buffers (much like a capacitor or flywheel) that ensure stability in the face of shocks.

Implication:
    This principle explains phenomena such as the “bullwhip effect” and underscores the need for calculated buffering versus lean inventory.

E. Distributed Decision-Making and Self-Organization
-------------------------------------------------------
Axiom: There is no single central authority dictating every flow. Instead, local nodes measure and react to their immediate environment, achieving global adaptive behavior emergently.

Physical/Network Analogy:
    This is similar to how local interactions in a fluid or electrical network lead to overall equilibrium (e.g., Kirchhoff’s Laws in electrical circuits).

2. Mapping the Theory to Economic and Physical Paradigms
---------------------------------------------------------
Microeconomics and Liquidity
    Inventory vs. Liquidity:
        Think of each node’s inventory as “liquidity” that allows immediate response.
        A node with a high φ (or surplus) can act as a mini “bank” that can lend out (ship) resources to a needy node.
    Local Decision-Making:
        The dynamic routing decision is akin to how local market participants adjust supply based on local price signals.

Macroeconomics and Capital Flow
    Distributed vs. Centralized Models:
        When turned into a network model, the whole system mirrors capital flow at a macro level.
        Capital (or goods) flows along the “path of least resistance” until supply equals demand globally.
    System Stability:
        Just as macroeconomic systems need buffers (e.g., foreign exchange reserves) for stability during shocks, the network requires inventory buffers to maintain flow stability.

3. Turning Theory into a Node.js Implementation
--------------------------------------------------
While Node.js is traditionally an event-driven, non-blocking runtime often used for web applications, its characteristics make it ideal for simulating decentralized, real-time networks. Here’s how the various elements of the theory might be executed within a Node.js framework:

A. Object-Oriented Model for Nodes and Edges
    Nodes:
        Each node is an independent agent with properties like current inventory, target inventory, and a “compass” (potential φ).
        In Node.js, these can be represented using classes.
    Edges (Links):
        Each edge represents a connection between two nodes with its own capacity.
        Edges can encapsulate a method to compute flow based on the minimum of supply, demand, and capacity.

B. Asynchronous Decision-Making and Real-Time Updates
    Local Decision Loops:
        Node.js’s event loop can simulate local decision-making.
        Each node might run its own asynchronous “heartbeat” (or interval timer) that recalculates its state and communicates with neighboring nodes.
    Event-Driven Architecture:
        Use Node.js events (or even WebSockets for a distributed real-time network) to notify connected nodes when their state changes.
        For example, when a node’s inventory falls below a threshold, it could emit an event that nearby nodes listen for, triggering local redistributions.
    Simulation of Disruptions:
        Integrate events that simulate sudden changes (e.g., an edge’s capacity dropping to zero due to disruption, then recovering).
        This helps test the network’s resilience — much like how physical systems respond to perturbations.

C. Agent-Based Simulation and Distributed Systems
    Multiple Processes (or Microservices):
        For a more distributed simulation that mirrors the decentralized decision-making of the real system, each node could be run as a separate process or microservice.
        These processes exchange messages over a network (using protocols such as WebSockets or even TCP sockets).
    Scalability Considerations:
        Node.js’s non-blocking I/O model means that even with many nodes (agents), the system can scale to simulate large networks in near real-time.

D. Computational Methods and Optimization Algorithms
    Flow Calculation Algorithm:
        Each node calculates the flow on each connection based on the function:
            f(i, j, t) = min { s(i, t),  d(j, t),  c(i, j, t) }
        and then updates its state accordingly.
    Dynamic Re-Routing:
        Use local “compass” vectors to decide the optimal neighbor to which resources should be allocated.
        This is analogous to sending a current along the path of least resistance in an electrical network.
    Feedback Loops and Equilibrium:
        Nodes continuously update their inventories, and through small increments, the whole system shifts toward equilibrium (comparable to a damping system in physics).
        Algorithms for proportional control or threshold-based triggers can be implemented.

E. Integration with Modern Technologies
    Real-Time Data and IoT:
        While the simulation itself might run on Node.js, the same architecture could later be extended to consume real-time inputs from IoT devices (inventory sensors, transport data) via REST APIs or WebSocket streams.
    Blockchain and Transparency:
        For humanitarian applications (like the Myanmar case study), a blockchain component could be integrated to provide an immutable ledger for each transfer.
        Node.js has robust libraries for integrating with blockchain networks, thereby adding transparency and accountability.
    Machine Learning Integration:
        With Node.js serving as the orchestration layer, collected data can feed into ML algorithms (written in Python, for example) to adjust prediction models for c(i, j, t) (e.g., capacity forecasts) or refine the “compass” signals.
        Results can then be fed back into the Node.js system.

4. What Does This Do for Us?
-----------------------------
Translating the theory into a Node.js-based simulation or operational system gives us several powerful capabilities:

    - Real-Time Decentralized Simulation:
          The event-driven nature of Node.js allows each node to operate asynchronously, reflecting the local decision-making central to the Dynamic Compass theory.
          This simulation can capture the emergent behavior of the whole network as nodes constantly adjust their flows based on local and neighbor conditions.

    - Testbed for Axiomatic Principles:
          With a Node.js environment, we can run extensive experiments on scenarios (e.g., node disruptions, sudden demand spikes, temporary route failures)
          and validate that the conservation laws, flow limits, and dynamic re-routing indeed lead to stable, efficient, and self-healing systems.

    - Bridging Theory and Practice:
          The architecture can be scaled — from small localized networks (e.g., a region in Myanmar during a humanitarian crisis)
          to larger networks (national or even international supply chains).
          This is especially crucial when trying to demonstrate that what appears to be “intuitive” physics on a whiteboard translates into tangible improvements in logistics operations.

    - A Platform for Innovation:
          Once the simulation framework is running, additional modules (such as dynamic pricing, tokenized incentives, and real-time monitoring dashboards) can be layered on.
          This builds a comprehensive platform that not only validates the theory but also provides a practical tool to experiment, iterate, and eventually deploy in real-world supply chain environments.

    - Interdisciplinary Verification:
          The Node.js implementation serves as a bridge between disciplines.
          Economists, operations researchers, and physicists can all examine the outputs, compare them to predictions (e.g., equilibrium conditions, inventory oscillations),
          and use these insights to refine both theory and practice.

5. Methods and Strategies for Execution in Node.js
----------------------------------------------------
When moving from theory to a full Node.js implementation, consider the following execution methods:

    - Synchronous Simulation Loop:
          Implement a timer-based loop where each iteration recalculates node inventories and flows.
          This method is straightforward for prototyping the global dynamics of the network.

    - Asynchronous Event-Driven Agents:
          Each node runs its own timer or event loop.
          Nodes emit events (e.g., “inventory change”, “capacity disruption”) that neighboring nodes subscribe to.
          This mirrors the decentralized, reactive nature of the theory.

    - Distributed Microservices Architecture:
          Create a microservices model where each node is a separate service (or even containerized instance).
          Use messaging queues (for example, RabbitMQ or Kafka) to distribute events among nodes.
          This allows you to simulate geographically distributed nodes that mimic real-world settings.

    - Integration with Real-Time Data Sources:
          Once the theory is sound and the simulation validated, extend the architecture by adding REST or WebSocket endpoints,
          enabling nodes to receive live data about supply, demand, and route capacities from external APIs or IoT sensor networks.

    - Feedback and Optimization Layers:
          Implement a module that dynamically adjusts parameters (like capacities or the “compass” sensitivity) based on historical performance data.
          Techniques from machine learning can be integrated to forecast disruptions or adjust thresholds dynamically.

    - Visualization and Dashboarding:
          Use Node.js in conjunction with front-end technologies (React, D3.js) to build real-time dashboards that display the state of the network.
          Visual representations of node status, flow amounts, and network topology can help stakeholders understand system dynamics intuitively.

Conclusion
------------
By turning the concept of Dynamic Compass Logistics into a Node.js application, we create a platform that is both a simulation engine and (potentially) an operational backbone for decentralized supply chain management. The Node.js implementation would:

    - Model nodes and flows with object-oriented structures, mirroring the conservation and flow-limited axioms.
    - Utilize asynchronous event-driven programming to capture decentralized, real-time decision-making.
    - Scale from single-process simulations to distributed microservices for large networks, integrating live data streams.
    - Provide a testbed for evaluating economic, physical, and logistical principles side by side, thereby informing policy and operational decisions.

This full theory not only bridges physics and finance into a robust logistics framework but also demonstrates—through concrete methods and execution strategies—how a modern, decentralized system can be both simulated and eventually deployed using the versatile Node.js platform.
".

(** [def main(): theory = r"..."; print(theory)].  A function body that
    falls off its end returns [None]. *)
Definition main : itree consoleE value :=
  let theory := VStr theory in
  print theory ;;
  Ret VNone.

(** The module body: after the [def], the guard
    [if __name__ == '__main__': main()]. *)
Definition compasstheory (dunder_name : string) : itree consoleE unit :=
  if String.eqb dunder_name "__main__"
  then main ;; Ret tt
  else Ret tt.

(* ===================================================================== *)
(** ** Running a program against a console *)

(** The console a run starts from and leaves behind: the lines still to
    be read from standard input, and everything written to standard
    output so far. *)
Record console : Type := mkConsole {
  stdin : list string;
  stdout : string
}.

(** A console with nothing printed yet. *)
Definition fresh (lines : list string) : console :=
  {| stdin := lines; stdout := "" |}.

Definition write (c : console) (s : string) : console :=
  {| stdin := stdin c; stdout := stdout c ++ s |}.

(** One console request.  Reading past the end of standard input has no
    answer: Python raises [EOFError] there. *)
Definition handle {T : Type} (e : consoleE T) (c : console) : option (T * console) :=
  match e in consoleE T return option (T * console) with
  | StdoutWrite s => Some (tt, write c s)
  | StdinReadline =>
      match stdin c with
      | [] => None
      | line :: rest => Some (line, {| stdin := rest; stdout := stdout c |})
      end
  end.

(** How a run ends. *)
Variant outcome (R : Type) : Type :=
| Returned (r : R) (c : console)
| Raised (exn : string) (c : console)
| OutOfFuel.
Arguments Returned {R} r c.
Arguments Raised {R} exn c.
Arguments OutOfFuel {R}.

(** The interpreter loop: each unit of fuel pays for one node of the
    tree, a console request, a silent step or the final return. *)
Fixpoint run {R : Type} (fuel : nat) (t : itree consoleE R) (c : console) : outcome R :=
  match fuel with
  | 0 => OutOfFuel
  | S fuel' =>
      match observe t with
      | RetF r => Returned r c
      | TauF t' => run fuel' t' c
      | VisF e k =>
          match handle e c with
          | Some (x, c') => run fuel' (k x) c'
          | None => Raised "EOFError" c
          end
      end
  end.

(** What a finished run printed, what it left unread, what it returned. *)
Definition printed {R : Type} (o : outcome R) : option string :=
  match o with
  | Returned _ c | Raised _ c => Some (stdout c)
  | OutOfFuel => None
  end.

Definition unread {R : Type} (o : outcome R) : option (list string) :=
  match o with
  | Returned _ c | Raised _ c => Some (stdin c)
  | OutOfFuel => None
  end.

Definition result {R : Type} (o : outcome R) : option R :=
  match o with
  | Returned r _ => Some r
  | Raised _ _ | OutOfFuel => None
  end.

(** The number of console requests a run makes before it ends, or [None]
    when the fuel does not reach the end. *)
Fixpoint requests {R : Type} (fuel : nat) (t : itree consoleE R) (c : console) : option nat :=
  match fuel with
  | 0 => None
  | S fuel' =>
      match observe t with
      | RetF _ => Some 0
      | TauF t' => requests fuel' t' c
      | VisF e k =>
          match handle e c with
          | Some (x, c') => option_map S (requests fuel' (k x) c')
          | None => Some 1
          end
      end
  end.

(* ===================================================================== *)
(** ** Reading the essay *)

(** Byte offsets at which [pat] occurs in [s], counted from [pos]. *)
Fixpoint occurrences_from (pos : N) (pat s : string) : list N :=
  (if prefix pat s then [pos] else []) ++
  match s with
  | EmptyString => []
  | String _ s' => occurrences_from (N.succ pos) pat s'
  end.

Definition occurrences (pat s : string) : list N :=
  occurrences_from 0%N pat s.

(** The flow rule as the essay words it (source lines 22 and 102). *)
Definition flow_rule : string :=
  "f(i, j, t) = min { s(i, t),  d(j, t),  c(i, j, t) }".

(** The one-request tree: write [s], then return [r]. *)
Definition write_then_return {R : Type} (s : string) (r : R) : itree consoleE R :=
  Vis (StdoutWrite s) (fun _ => Ret r).

(* ===================================================================== *)
(** ** Facts about [print] *)

Section Print.
Context {R : Type} (v : value) (r : R).

(** A call of [print] followed by a return is a single write. *)
Lemma print_then_shape :
  (print v ;; Ret r) ≅ write_then_return (str v ++ newline) r.
Proof.
  unfold print, write_then_return.
  rewrite bind_bind, bind_trigger.
  apply eqit_Vis. intros []. rewrite !bind_ret_l. reflexivity.
Qed.

(** Two units of fuel pay for it: the write and the return. *)
Lemma run_print_then (fuel : nat) (c : console) :
  run (S (S fuel)) (print v ;; Ret r) c = Returned r (write c (str v ++ newline)).
Proof. reflexivity. Qed.

Lemma run_print_then_short (c : console) :
  run 1 (print v ;; Ret r) c = OutOfFuel.
Proof. reflexivity. Qed.

Lemma requests_print_then (fuel : nat) (c : console) :
  requests (S (S fuel)) (print v ;; Ret r) c = Some 1.
Proof. reflexivity. Qed.

Lemma all_finite_print_then : all_finite (print v ;; Ret r).
Proof.
  apply all_finite_bind_weak; [| intros; apply all_finite_Ret].
  unfold print.
  apply all_finite_bind_weak; [apply all_finite_trigger | intros; apply all_finite_Ret].
Qed.
End Print.

(** Fuel of at least two is two more than something. *)
Lemma fuel_two (fuel : nat) : 2 <= fuel -> exists n, fuel = S (S n).
Proof.
  intros H. exists (fuel - 2). lia.
Qed.

(** The run of [main], for any console and any sufficient fuel. *)
Lemma run_main (fuel : nat) (c : console) :
  run (S (S fuel)) main c = Returned VNone (write c (theory ++ newline)).
Proof.
  unfold main. apply (run_print_then (VStr theory) VNone).
Qed.

(* ===================================================================== *)
(** ** What [main] does *)

(** C1: [main] does one thing.  Its whole interaction tree is a single
    write of the fixed text [theory], followed by the newline [print]
    adds, to standard output; it then returns [None].  So from any
    console, a run appends exactly that text, reads nothing, and hands
    back [None]: there is no other behaviour in the function. *)
Theorem main_prints_the_essay_and_returns_none :
  main ≅ write_then_return (theory ++ newline) VNone /\
  forall c : console,
    run 2 main c =
    Returned VNone {| stdin := stdin c; stdout := stdout c ++ theory ++ newline |}.
Proof.
  split.
  - unfold main. apply (print_then_shape (VStr theory) VNone).
  - intros c. apply run_main.
Qed.

(** C9: [main] is a closed term (it has no parameter), and its runs do
    not depend on the input: started with any two standard inputs and
    any two sufficient amounts of fuel, both runs print the same
    characters, namely [theory] and a newline, return the same value, and
    leave their standard input unread. *)
Theorem main_deterministic_input_independent
    (lines1 lines2 : list string) (fuel1 fuel2 : nat) :
  2 <= fuel1 -> 2 <= fuel2 ->
  printed (run fuel1 main (fresh lines1)) = Some (theory ++ newline) /\
  printed (run fuel2 main (fresh lines2)) = printed (run fuel1 main (fresh lines1)) /\
  result (run fuel2 main (fresh lines2)) = result (run fuel1 main (fresh lines1)) /\
  unread (run fuel1 main (fresh lines1)) = Some lines1 /\
  unread (run fuel2 main (fresh lines2)) = Some lines2.
Proof.
  intros H1 H2.
  destruct (fuel_two fuel1 H1) as [n1 ->].
  destruct (fuel_two fuel2 H2) as [n2 ->].
  rewrite !run_main. cbn [printed result unread write fresh stdin stdout].
  repeat split.
Qed.

Lemma main_deterministic_input_independent_witness :
  2 <= 2 /\ 2 <= 5 /\
  printed (run 2 main (fresh [])) = Some (theory ++ newline) /\
  printed (run 5 main (fresh ["3"; "x"])) = printed (run 2 main (fresh [])) /\
  result (run 5 main (fresh ["3"; "x"])) = result (run 2 main (fresh [])) /\
  unread (run 2 main (fresh [])) = Some [] /\
  unread (run 5 main (fresh ["3"; "x"])) = Some ["3"; "x"].
Proof.
  split; [lia |]. split; [lia |].
  apply (main_deterministic_input_independent [] ["3"; "x"] 2 5); lia.
Defined.

(** C10: [main] terminates.  Every branch of its tree is finite, whatever
    the console answers; and run from any console with any fuel of two
    or more it returns, having made exactly one console request (the
    write issued by [print]). *)
Theorem main_terminates :
  all_finite main /\
  forall (c : console) (fuel : nat),
    2 <= fuel ->
    exists c' : console,
      run fuel main c = Returned VNone c' /\ requests fuel main c = Some 1.
Proof.
  split.
  - unfold main. apply all_finite_print_then.
  - intros c fuel H. destruct (fuel_two fuel H) as [n ->].
    exists (write c (theory ++ newline)). split.
    + apply run_main.
    + unfold main. apply (requests_print_then (VStr theory) VNone).
Qed.

Lemma main_terminates_witness :
  2 <= 2 /\
  exists c' : console,
    run 2 main (fresh ["y"]) = Returned VNone c' /\
    requests 2 main (fresh ["y"]) = Some 1.
Proof.
  split; [lia |].
  apply (proj2 main_terminates (fresh ["y"]) 2). lia.
Defined.

(* ===================================================================== *)
(** ** The module body and the text it prints *)

(** Run as a script the module performs [main] once; imported under any
    other name it only defines [main] and touches nothing. *)
Lemma compasstheory_as_script (fuel : nat) (c : console) :
  run (S (S fuel)) (compasstheory "__main__") c =
  Returned tt (write c (theory ++ newline)).
Proof. reflexivity. Qed.

Lemma compasstheory_imported (name : string) (fuel : nat) (c : console) :
  name <> "__main__" ->
  run (S fuel) (compasstheory name) c = Returned tt c.
Proof.
  intros H. unfold compasstheory.
  destruct (String.eqb_spec name "__main__") as [E | _]; [contradiction | reflexivity].
Qed.

(** With one unit of fuel [main] has issued its write and not yet returned. *)
Lemma main_needs_two_steps (c : console) : run 1 main c = OutOfFuel.
Proof. reflexivity. Qed.

(** The essay is 13177 bytes long (13073 characters, 55 of them outside
    ASCII and two or three bytes wide), in 185 lines. *)
Lemma theory_length : N.of_nat (String.length theory) = 13177%N.
Proof. vm_compute. reflexivity. Qed.

(** The flow rule appears in the essay twice, as prose: at byte 1039
    (section 1.B) and byte 6391 (section 3.D).  The program contains it in
    no other form. *)
Lemma theory_states_flow_rule : occurrences flow_rule theory = [1039; 6391]%N.
Proof. vm_compute. reflexivity. Qed.

(** The essay does not define supply or demand by a clamped difference. *)
Lemma theory_has_no_clamp : occurrences "max(" theory = [].
Proof. vm_compute. reflexivity. Qed.

(* ===================================================================== *)
(** ** The model tells programs apart *)

(** A program that reads does depend on its input: [input()] returns the
    first line when there is one and raises at the end of input. *)
Lemma input_depends_on_stdin :
  run 2 input (fresh ["a"]) = Returned (VStr "a") (fresh []) /\
  run 2 input (fresh []) = Raised "EOFError" (fresh []).
Proof. split; reflexivity. Qed.

(** A program that loops silently never returns, whatever the fuel. *)
Lemma run_spin (R : Type) (fuel : nat) (c : console) :
  run fuel (ITree.spin : itree consoleE R) c = OutOfFuel.
Proof.
  induction fuel as [| fuel IH]; [reflexivity |].
  cbn. exact IH.
Qed.

(* ===================================================================== *)
(** ** Programs that call [main] *)

(** Strongly bisimilar programs run alike, step for step. *)
Lemma run_eq_itree {R : Type} (fuel : nat) :
  forall (t1 t2 : itree consoleE R) (c : console),
    t1 ≅ t2 -> run fuel t1 c = run fuel t2 c.
Proof.
  induction fuel as [| fuel IH]; intros t1 t2 c H; [reflexivity |].
  apply eqit_inv in H. cbn [run]. unfold observe.
  destruct (_observe t1) as [r1 | u1 | X1 e1 k1],
           (_observe t2) as [r2 | u2 | X2 e2 k2];
    cbn in H; try contradiction.
  - now subst.
  - now apply IH.
  - destruct H as [p [He Hk]]. destruct p. cbn in He, Hk. subst e2.
    destruct (handle e1 c) as [[x c'] |]; [apply IH, Hk | reflexivity].
Qed.

(** A call of [main] with code after it is one write followed by that
    code, which receives [None]. *)
Lemma main_bind_shape {R : Type} (k : value -> itree consoleE R) :
  (x <- main ;; k x) ≅ Vis (StdoutWrite (theory ++ newline)) (fun _ => k VNone).
Proof.
  unfold main, print. cbn [str].
  rewrite !bind_bind, bind_trigger.
  apply eqit_Vis. intros []. rewrite !bind_ret_l. reflexivity.
Qed.

Lemma length_append (s t : string) :
  String.length (s ++ t) = String.length s + String.length t.
Proof.
  induction s as [| a s IH]; cbn; [reflexivity | now rewrite IH].
Qed.

(** Appending [print]'s output always changes the text. *)
Lemma append_line_changes (s t : string) : s ++ t ++ newline <> s.
Proof.
  intros H. apply (f_equal String.length) in H.
  rewrite !length_append in H. cbn in H. lia.
Qed.

(** X3: composition.  Wherever a program calls [main], the call costs one
    step, hands [None] to the code that follows, and that code runs from
    the console with [theory] and a newline appended; nothing else of the
    call is visible to it. *)
Theorem main_then_continues
    {R : Type} (k : value -> itree consoleE R) (fuel : nat) (c : console) :
  run (S fuel) (x <- main ;; k x) c = run fuel (k VNone) (write c (theory ++ newline)).
Proof.
  rewrite (run_eq_itree (S fuel) _ _ c (main_bind_shape k)).
  reflexivity.
Qed.

(** X1: the guard.  Loaded under any name, with fuel for two steps, the
    module body returns and leaves standard input unread; it has printed
    the essay exactly when the name is [__main__], and has left standard
    output as it was exactly when it is any other name. *)
Theorem compasstheory_prints_iff_script
    (name : string) (c : console) (fuel : nat) :
  2 <= fuel ->
  exists c' : console,
    run fuel (compasstheory name) c = Returned tt c' /\
    stdin c' = stdin c /\
    (stdout c' = stdout c ++ theory ++ newline <-> name = "__main__") /\
    (stdout c' = stdout c <-> name <> "__main__").
Proof.
  intros H. destruct (fuel_two fuel H) as [n ->].
  destruct (string_dec name "__main__") as [-> | E].
  - exists (write c (theory ++ newline)).
    split; [apply compasstheory_as_script |].
    cbn [write stdin stdout]. repeat split; auto.
    + intros H'. now apply append_line_changes in H'.
    + intros H'. contradiction.
  - exists c. split; [now apply compasstheory_imported |]. repeat split; auto.
    + intros H'. symmetry in H'. now apply append_line_changes in H'.
    + intros H'. contradiction.
Qed.

Lemma compasstheory_prints_iff_script_witness :
  2 <= 2 /\
  exists c' : console,
    run 2 (compasstheory "compasstheory") (fresh ["q"]) = Returned tt c' /\
    stdin c' = stdin (fresh ["q"]) /\
    (stdout c' = stdout (fresh ["q"]) ++ theory ++ newline <->
     "compasstheory" = "__main__") /\
    (stdout c' = stdout (fresh ["q"]) <-> "compasstheory" <> "__main__").
Proof.
  split; [lia |].
  apply (compasstheory_prints_iff_script "compasstheory" (fresh ["q"]) 2). lia.
Defined.


